(** * The in-memory task store of the to-do list service (main.py)

    A shallow embedding of the store (the module globals [tasks_storage] and
    [next_task_id]), of the helpers [find_task_by_id] and
    [create_task_object], and of the request handlers [root], [get_tasks],
    [create_task], [delete_task] and [health_check], together with the
    request validation done by the [TaskCreate] model.

    The handlers are [async def] functions without any [await]: each one runs
    to completion on the event loop, so a run of the service is a sequence of
    requests handled one after the other on the shared store. *)

From Stdlib Require Import ZArith NArith List Bool Lia String Ascii Sorted.
From Stdlib Require DecimalString DecimalZ DecimalPos.
Import ListNotations.

Open Scope Z_scope.

(** ** The Python built-ins the program uses *)

Module Py.

(** A [str] is a sequence of Unicode code points. *)
Definition char := N.
Definition str := list char.

Definition of_string (s : string) : str :=
  map N_of_ascii (list_ascii_of_string s).

Definition len {A : Type} (l : list A) : Z := Z.of_nat (List.length l).

(** The characters [str.strip()] removes when called without an argument:
    those for which [str.isspace] holds. *)
Definition isspace (c : char) : bool :=
  ((9 <=? c) && (c <=? 13)        (* \t \n \v \f \r *)
   || (28 <=? c) && (c <=? 32)    (* FS GS RS US and the space *)
   || (c =? 133) || (c =? 160)    (* NEL, no-break space *)
   || (c =? 5760)                 (* U+1680 *)
   || (8192 <=? c) && (c <=? 8202) (* U+2000 .. U+200A *)
   || (c =? 8232) || (c =? 8233)  (* U+2028, U+2029 *)
   || (c =? 8239) || (c =? 8287)  (* U+202F, U+205F *)
   || (c =? 12288))%N.            (* U+3000 *)

(** The surrogate code points U+D800 .. U+DFFF. A [str] built from a JSON
    body can hold one on its own; such a text has no UTF-8 encoding. *)
Definition is_surrogate (c : char) : bool :=
  ((55296 <=? c) && (c <=? 57343))%N.

Fixpoint lstrip (s : str) : str :=
  match s with
  | [] => []
  | c :: s' => if isspace c then lstrip s' else s
  end.

Definition rstrip (s : str) : str := rev (lstrip (rev s)).

(** [s.strip()] *)
Definition strip (s : str) : str := rstrip (lstrip s).

Fixpoint str_eqb (a b : str) : bool :=
  match a, b with
  | [], [] => true
  | x :: a', y :: b' => (x =? y)%N && str_eqb a' b'
  | _, _ => false
  end.

(** [l.remove(x)]: drops the first item equal to [x]; [None] stands for the
    [ValueError] raised when no item is. *)
Fixpoint list_remove {A : Type} (eqb : A -> A -> bool) (x : A) (l : list A)
  : option (list A) :=
  match l with
  | [] => None
  | y :: l' =>
      if eqb y x then Some l'
      else match list_remove eqb x l' with
           | Some r => Some (y :: r)
           | None => None
           end
  end.

End Py.

(** ** Data model *)

(** A stored task: the dict [{"id": ..., "text": ...}]. *)
Module Task.
Record t := mk { id : Z; text : Py.str }.

(** [==] on these dicts: same keys, equal values. *)
Definition eqb (a b : t) : bool :=
  (id a =? id b) && Py.str_eqb (text a) (text b).
End Task.

(** The request model: [text: str = Field(..., min_length=1, max_length=200)]. *)
Module TaskCreate.
Record t := mk { text : Py.str }.

Definition min_length : Z := 1.
Definition max_length : Z := 200.

(** The [str] validation takes a well-formed Unicode string only: a text
    holding a lone surrogate is refused whatever its length. *)
Definition encodable (raw : Py.str) : bool :=
  negb (existsb Py.is_surrogate raw).

(** The length constraints are checked on the text as it was sent. *)
Definition valid (raw : Py.str) : bool :=
  encodable raw && (min_length <=? Py.len raw) && (Py.len raw <=? max_length).

Definition validate (raw : Py.str) : option t :=
  if valid raw then Some (mk raw) else None.
End TaskCreate.

Module TaskResponse.
Record t := mk { id : Z; text : Py.str }.
End TaskResponse.

(** The module globals. *)
Record Store := mkStore {
  tasks_storage : list Task.t;
  next_task_id : Z
}.

Definition initial_store : Store :=
  {| tasks_storage := []; next_task_id := 1 |}.

(** ** Exceptions and the state monad of the handlers *)

Inductive detail :=
| Task_not_found (task_id : Z).   (* f"Task with id {task_id} not found" *)

Inductive exn :=
| HTTPException (status_code : Z) (d : detail)
| ValueError.                     (* list.remove(x): x not in list *)

Inductive outcome (A : Type) :=
| Return (a : A)
| Raise (e : exn).
Arguments Return {A} a.
Arguments Raise {A} e.

Definition M (A : Type) : Type := Store -> outcome A * Store.

Definition ret {A : Type} (a : A) : M A := fun s => (Return a, s).

Definition bind {A B : Type} (m : M A) (f : A -> M B) : M B :=
  fun s =>
    match m s with
    | (Return a, s') => f a s'
    | (Raise e, s') => (Raise e, s')
    end.

Definition raise {A : Type} (e : exn) : M A := fun s => (Raise e, s).

Declare Scope py_scope.
Delimit Scope py_scope with py.
Notation "x <- m ;; k" := (bind m (fun x => k))
  (at level 61, m at next level, right associativity) : py_scope.
Notation "m ;;; k" := (bind m (fun _ => k))
  (at level 61, right associativity) : py_scope.
Open Scope py_scope.

Definition read_tasks_storage : M (list Task.t) :=
  fun s => (Return (tasks_storage s), s).

Definition read_next_task_id : M Z :=
  fun s => (Return (next_task_id s), s).

Definition write_next_task_id (n : Z) : M unit :=
  fun s => (Return tt, {| tasks_storage := tasks_storage s; next_task_id := n |}).

(** [tasks_storage.append(task)] *)
Definition tasks_storage_append (task : Task.t) : M unit :=
  fun s => (Return tt, {| tasks_storage := tasks_storage s ++ [task];
                          next_task_id := next_task_id s |}).

(** [tasks_storage.remove(task)] *)
Definition tasks_storage_remove (task : Task.t) : M unit :=
  fun s =>
    match Py.list_remove Task.eqb task (tasks_storage s) with
    | Some l => (Return tt, {| tasks_storage := l; next_task_id := next_task_id s |})
    | None => (Raise ValueError, s)
    end.

(** ** Helper functions *)

(** The loop of [find_task_by_id]: the first task whose id matches, or
    [None]. *)
Fixpoint find_task_loop (task_id : Z) (l : list Task.t) : option Task.t :=
  match l with
  | [] => None
  | task :: l' =>
      if Task.id task =? task_id then Some task
      else find_task_loop task_id l'
  end.

Definition find_task_by_id (task_id : Z) : M (option Task.t) :=
  l <- read_tasks_storage ;;
  ret (find_task_loop task_id l).

Definition create_task_object (task_text : Py.str) : M Task.t :=
  n <- read_next_task_id ;;
  let task := {| Task.id := n; Task.text := Py.strip task_text |} in
  write_next_task_id (n + 1) ;;;
  ret task.

(** ** Request handlers *)

Record RootInfo := mkRootInfo { total_tasks : Z }.

Record Health := mkHealth { tasks_count : Z; next_id : Z }.

(** The confirmation [delete_task] returns: the message names the id asked
    for, [deleted_task] copies the removed task's id and text. *)
Record Deleted := mkDeleted {
  message_task_id : Z;
  deleted_task : TaskResponse.t
}.

Definition to_response (task : Task.t) : TaskResponse.t :=
  {| TaskResponse.id := Task.id task; TaskResponse.text := Task.text task |}.

Definition root : M RootInfo :=
  l <- read_tasks_storage ;;
  ret {| total_tasks := Py.len l |}.

Definition get_tasks : M (list TaskResponse.t) :=
  l <- read_tasks_storage ;;
  ret (map to_response l).

Definition create_task (task_data : TaskCreate.t) : M TaskResponse.t :=
  new_task <- create_task_object (TaskCreate.text task_data) ;;
  tasks_storage_append new_task ;;;
  ret (to_response new_task).

Definition HTTP_404_NOT_FOUND : Z := 404.

(** [if not task_to_delete] tells [None] from a task: a task dict has its two
    keys and is never taken for false. *)
Definition delete_task (task_id : Z) : M Deleted :=
  task_to_delete <- find_task_by_id task_id ;;
  match task_to_delete with
  | None => raise (HTTPException HTTP_404_NOT_FOUND (Task_not_found task_id))
  | Some task =>
      tasks_storage_remove task ;;;
      ret {| message_task_id := task_id; deleted_task := to_response task |}
  end.

Definition health_check : M Health :=
  l <- read_tasks_storage ;;
  n <- read_next_task_id ;;
  ret {| tasks_count := Py.len l; next_id := n |}.

(** ** The service: requests, responses, runs *)

Inductive request :=
| GET_root
| GET_tasks
| POST_tasks (text : Py.str)
| DELETE_tasks (task_id : Z)
| GET_health.

Inductive body :=
| Root_body (r : RootInfo)
| Tasks_body (l : list TaskResponse.t)
| Task_body (t : TaskResponse.t)
| Deleted_body (d : Deleted)
| Health_body (h : Health)
| Error_body (d : detail)
| Validation_error
| Internal_server_error.

Record response := mkResponse { status : Z; content : body }.

(** What the framework makes of a handler's outcome. *)
Definition respond {A : Type} (ok : Z) (render : A -> body) (m : M A)
  : Store -> response * Store :=
  fun s =>
    match m s with
    | (Return a, s') => ({| status := ok; content := render a |}, s')
    | (Raise (HTTPException c d), s') => ({| status := c; content := Error_body d |}, s')
    | (Raise ValueError, s') => ({| status := 500; content := Internal_server_error |}, s')
    end.

(** The answer to a body that fails validation. The 422 response repeats the
    text that was sent; when that text holds a lone surrogate the response
    cannot be encoded and the request ends as an internal error. The handler
    has not run in either case. *)
Definition refusal (text : Py.str) : response :=
  if TaskCreate.encodable text
  then {| status := 422; content := Validation_error |}
  else {| status := 500; content := Internal_server_error |}.

Definition handle (r : request) : Store -> response * Store :=
  match r with
  | GET_root => respond 200 Root_body root
  | GET_tasks => respond 200 Tasks_body get_tasks
  | POST_tasks text =>
      match TaskCreate.validate text with
      | Some task_data => respond 201 Task_body (create_task task_data)
      | None => fun s => (refusal text, s)
      end
  | DELETE_tasks task_id => respond 200 Deleted_body (delete_task task_id)
  | GET_health => respond 200 Health_body health_check
  end.

(** Handling a sequence of requests in order: the responses and the final
    store. *)
Fixpoint run (reqs : list request) (s : Store) : list response * Store :=
  match reqs with
  | [] => ([], s)
  | r :: reqs' =>
      let (resp, s1) := handle r s in
      let (resps, s2) := run reqs' s1 in
      (resp :: resps, s2)
  end.

Definition responses (reqs : list request) (s : Store) : list response :=
  fst (run reqs s).

Definition final (reqs : list request) (s : Store) : Store :=
  snd (run reqs s).

(** A store the service can be in: the one some sequence of requests leads
    to from the initial store. *)
Definition reachable (s : Store) : Prop :=
  exists reqs, final reqs initial_store = s.

(** The id a response reports as assigned: that of a created task. *)
Definition assigned_id (r : response) : option Z :=
  match content r with
  | Task_body t => if status r =? 201 then Some (TaskResponse.id t) else None
  | _ => None
  end.

Fixpoint assigned_ids (resps : list response) : list Z :=
  match resps with
  | [] => []
  | r :: resps' =>
      match assigned_id r with
      | Some i => i :: assigned_ids resps'
      | None => assigned_ids resps'
      end
  end.

(** The three store operations of the specification. *)
Definition list_op : Store -> response * Store := handle GET_tasks.
Definition create_op (text : Py.str) : Store -> response * Store :=
  handle (POST_tasks text).
Definition delete_op (task_id : Z) : Store -> response * Store :=
  handle (DELETE_tasks task_id).

(** ** Auxiliary notions for the statements *)

(** The task a create builds in store [s] from [text]. *)
Definition created (s : Store) (text : Py.str) : Task.t :=
  {| Task.id := next_task_id s; Task.text := Py.strip text |}.

(** The shape of one step: a request leaves the store alone, or appends the
    task just created and bumps the counter, or takes one task out. *)
Inductive step_shape (s : Store) : response -> Store -> Prop :=
| step_same (resp : response) :
    assigned_id resp = None ->
    step_shape s resp s
| step_create (resp : response) (text : Py.str) :
    TaskCreate.valid text = true ->
    assigned_id resp = Some (next_task_id s) ->
    step_shape s resp
      {| tasks_storage := tasks_storage s ++ [created s text];
         next_task_id := next_task_id s + 1 |}
| step_delete (resp : response) (l1 l2 : list Task.t) (t : Task.t) :
    assigned_id resp = None ->
    tasks_storage s = l1 ++ t :: l2 ->
    step_shape s resp
      {| tasks_storage := l1 ++ l2; next_task_id := next_task_id s |}.

(** The invariant of the store: the counter is positive, every stored id was
    issued (it is below the counter), the stored ids increase along the
    sequence, and no stored text is longer than the model allows. *)
Record store_ok (s : Store) : Prop := mk_store_ok {
  ok_counter : 1 <= next_task_id s;
  ok_below :
    Forall (fun t => 1 <= Task.id t < next_task_id s) (tasks_storage s);
  ok_sorted : StronglySorted Z.lt (map Task.id (tasks_storage s));
  ok_text :
    Forall (fun t => Py.len (Task.text t) <= TaskCreate.max_length)
           (tasks_storage s)
}.

(** The tasks that creating [texts] in turn yields when the counter stands at
    [n]. *)
Fixpoint tasks_created (n : Z) (texts : list Py.str) : list Task.t :=
  match texts with
  | [] => []
  | text :: texts' =>
      {| Task.id := n; Task.text := Py.strip text |} :: tasks_created (n + 1) texts'
  end.

(** The id a response reports as deleted: that of the task a delete took
    out. *)
Definition deleted_id (r : response) : option Z :=
  match content r with
  | Deleted_body d =>
      if status r =? 200 then Some (TaskResponse.id (deleted_task d)) else None
  | _ => None
  end.

Fixpoint deleted_ids (resps : list response) : list Z :=
  match resps with
  | [] => []
  | r :: resps' =>
      match deleted_id r with
      | Some i => i :: deleted_ids resps'
      | None => deleted_ids resps'
      end
  end.

(** A task whose id is not [i]. *)
Definition other_id (i : Z) (t : Task.t) : bool := negb (Task.id t =? i).

(** An id that is not in the list [d]. *)
Definition not_among (d : list Z) (i : Z) : bool := negb (existsb (Z.eqb i) d).

(** ** The texts [delete_task] formats *)

(** [str(n)] for an int, as an f-string inserts it: the decimal digits, with
    a minus sign in front of a negative number. *)
Definition str_of_int (n : Z) : Py.str :=
  Py.of_string (DecimalString.NilZero.string_of_int (Z.to_int n)).

(** [f"Task with id {task_id} not found"] *)
Definition detail_message (d : detail) : Py.str :=
  match d with
  | Task_not_found task_id =>
      Py.of_string "Task with id " ++ str_of_int task_id
        ++ Py.of_string " not found"
  end.

(** [f"Task with id {task_id} deleted successfully"] *)
Definition deleted_message (d : Deleted) : Py.str :=
  Py.of_string "Task with id " ++ str_of_int (message_task_id d)
    ++ Py.of_string " deleted successfully".

(** * Properties *)

(** ** [str.strip] *)

Module PyFacts.
Import Py.

Lemma lstrip_split (s : str) :
  exists ws, s = ws ++ lstrip s /\ forallb isspace ws = true.
Proof.
  induction s as [|c s IH]; simpl.
  - exists []. split; reflexivity.
  - destruct (isspace c) eqn:Hc.
    + destruct IH as [ws [E F]]. exists (c :: ws). simpl.
      rewrite Hc, F. split; [f_equal; exact E | reflexivity].
    + exists []. split; reflexivity.
Qed.

Lemma lstrip_head (s : str) (c : char) (r : str) :
  lstrip s = c :: r -> isspace c = false.
Proof.
  induction s as [|x s IH]; simpl; [discriminate|].
  destruct (isspace x) eqn:Hx; [exact IH|].
  intros E. injection E as -> _. exact Hx.
Qed.

Lemma lstrip_length (s : str) : (List.length (lstrip s) <= List.length s)%nat.
Proof.
  induction s as [|c s IH]; simpl; [lia|].
  destruct (isspace c); simpl; lia.
Qed.

Lemma lstrip_nil_iff (s : str) : lstrip s = [] <-> forallb isspace s = true.
Proof.
  induction s as [|c s IH]; simpl; [tauto|].
  destruct (isspace c); simpl; [exact IH|].
  split; discriminate.
Qed.

Lemma lstrip_keeps (s : str) (c : char) :
  isspace c = false -> lstrip (s ++ [c]) <> [].
Proof.
  intros Hc E. apply lstrip_nil_iff in E.
  rewrite forallb_app in E. simpl in E. rewrite Hc in E.
  rewrite andb_false_r in E. discriminate.
Qed.

Lemma rstrip_split (s : str) :
  exists ws, s = rstrip s ++ ws /\ forallb isspace ws = true.
Proof.
  unfold rstrip. destruct (lstrip_split (rev s)) as [ws [E F]].
  exists (rev ws). split.
  - rewrite <- rev_app_distr, <- E, rev_involutive. reflexivity.
  - rewrite forallb_forall in *. intros x Hx. apply F, in_rev, Hx.
Qed.

Lemma rstrip_length (s : str) : (List.length (rstrip s) <= List.length s)%nat.
Proof.
  unfold rstrip. rewrite length_rev.
  etransitivity; [apply lstrip_length|]. rewrite length_rev. lia.
Qed.

Lemma rstrip_last (s r : str) (c : char) :
  rstrip s = r ++ [c] -> isspace c = false.
Proof.
  unfold rstrip. intros E.
  apply (f_equal (@rev char)) in E.
  rewrite rev_involutive, rev_app_distr in E. simpl in E.
  exact (lstrip_head _ _ _ E).
Qed.

(** A string that starts with a non-blank keeps its first character under
    [rstrip]. *)
Lemma rstrip_cons_nonspace (c : char) (s : str) :
  isspace c = false -> exists r, rstrip (c :: s) = c :: r.
Proof.
  intros Hc. unfold rstrip. simpl.
  destruct (lstrip_split (rev s ++ [c])) as [ws [E F]].
  destruct (lstrip (rev s ++ [c])) as [|x l] eqn:L using rev_ind.
  - exfalso. exact (lstrip_keeps _ _ Hc L).
  - clear IHl. rewrite app_assoc in E.
    apply app_inj_tail in E. destruct E as [_ <-].
    rewrite rev_app_distr. simpl. eexists. reflexivity.
Qed.

Lemma strip_length (s : str) : (List.length (strip s) <= List.length s)%nat.
Proof.
  unfold strip. etransitivity; [apply rstrip_length | apply lstrip_length].
Qed.

(** [strip] removes a run of blanks at each end and nothing else. *)
Lemma strip_split (s : str) :
  exists l r, s = l ++ strip s ++ r
              /\ forallb isspace l = true /\ forallb isspace r = true.
Proof.
  destruct (lstrip_split s) as [l [El Fl]].
  destruct (rstrip_split (lstrip s)) as [r [Er Fr]].
  exists l, r. unfold strip. rewrite <- Er. auto.
Qed.

(** What is left neither starts nor ends with a blank. *)
Lemma strip_ends (s : str) :
  (forall c r, strip s = c :: r -> isspace c = false)
  /\ (forall r c, strip s = r ++ [c] -> isspace c = false).
Proof.
  split.
  - intros c r E. unfold strip in E.
    destruct (lstrip s) as [|x l] eqn:L.
    + discriminate.
    + pose proof (lstrip_head _ _ _ L) as Hx.
      destruct (rstrip_cons_nonspace x l Hx) as [r' E'].
      rewrite E' in E. injection E as <- _. exact Hx.
  - intros r c E. exact (rstrip_last _ _ _ E).
Qed.

Lemma strip_nil_iff (s : str) : strip s = [] <-> forallb isspace s = true.
Proof.
  split.
  - intros E. destruct (strip_split s) as [l [r [Es [Fl Fr]]]].
    rewrite E in Es. simpl in Es. rewrite Es, forallb_app, Fl, Fr. reflexivity.
  - intros F. apply lstrip_nil_iff in F. unfold strip. rewrite F. reflexivity.
Qed.

Lemma str_eqb_refl (s : str) : str_eqb s s = true.
Proof.
  induction s as [|c s IH]; simpl; [reflexivity|].
  rewrite N.eqb_refl. exact IH.
Qed.

End PyFacts.

(** ** Lookup and removal *)

Lemma Task_eqb_refl (t : Task.t) : Task.eqb t t = true.
Proof.
  unfold Task.eqb. rewrite Z.eqb_refl, PyFacts.str_eqb_refl. reflexivity.
Qed.

Lemma Task_eqb_id (a b : Task.t) : Task.eqb a b = true -> Task.id a = Task.id b.
Proof.
  unfold Task.eqb. intros H. apply andb_prop in H. destruct H as [H _].
  apply Z.eqb_eq. exact H.
Qed.

Lemma find_task_loop_none (task_id : Z) (l : list Task.t) :
  find_task_loop task_id l = None
  <-> Forall (fun t => Task.id t <> task_id) l.
Proof.
  induction l as [|t l IH]; simpl.
  - split; auto.
  - destruct (Task.id t =? task_id) eqn:E.
    + apply Z.eqb_eq in E. split; [discriminate|].
      intros H. inversion H; subst. contradiction.
    + apply Z.eqb_neq in E. rewrite IH. split.
      * intros H. constructor; assumption.
      * intros H. inversion H; assumption.
Qed.

(** The task the scan returns is the first one with the id asked for, and it
    is the one [list.remove] then takes out: an earlier item equal to it would
    carry the same id. *)
Lemma find_then_remove (task_id : Z) (l : list Task.t) (t : Task.t) :
  find_task_loop task_id l = Some t ->
  exists l1 l2,
    l = l1 ++ t :: l2
    /\ Forall (fun x => Task.id x <> task_id) l1
    /\ Task.id t = task_id
    /\ Py.list_remove Task.eqb t l = Some (l1 ++ l2).
Proof.
  induction l as [|x l IH]; simpl; [discriminate|].
  destruct (Task.id x =? task_id) eqn:E.
  - intros H. injection H as ->. apply Z.eqb_eq in E.
    exists [], l. rewrite Task_eqb_refl. repeat split; auto.
  - intros H. apply Z.eqb_neq in E.
    destruct (IH H) as [l1 [l2 [El [F [Hid R]]]]].
    exists (x :: l1), l2. repeat split.
    + simpl. f_equal. exact El.
    + constructor; assumption.
    + exact Hid.
    + destruct (Task.eqb x t) eqn:Q.
      * apply Task_eqb_id in Q. congruence.
      * rewrite R. reflexivity.
Qed.

(** ** What each request does to the store *)

Lemma handle_POST_valid (s : Store) (text : Py.str) :
  TaskCreate.valid text = true ->
  handle (POST_tasks text) s
  = ({| status := 201; content := Task_body (to_response (created s text)) |},
     {| tasks_storage := tasks_storage s ++ [created s text];
        next_task_id := next_task_id s + 1 |}).
Proof.
  intros V. unfold handle, TaskCreate.validate. rewrite V. reflexivity.
Qed.

Lemma handle_POST_invalid (s : Store) (text : Py.str) :
  TaskCreate.valid text = false ->
  handle (POST_tasks text) s = (refusal text, s).
Proof.
  intros V. unfold handle, TaskCreate.validate. rewrite V. reflexivity.
Qed.

Lemma refusal_assigned_id (text : Py.str) : assigned_id (refusal text) = None.
Proof. unfold refusal. destruct (TaskCreate.encodable text); reflexivity. Qed.

Lemma refusal_status (text : Py.str) :
  status (refusal text) = 422 \/ status (refusal text) = 500.
Proof. unfold refusal. destruct (TaskCreate.encodable text); auto. Qed.

Lemma handle_DELETE_missing (s : Store) (task_id : Z) :
  find_task_loop task_id (tasks_storage s) = None ->
  handle (DELETE_tasks task_id) s
  = ({| status := 404; content := Error_body (Task_not_found task_id) |}, s).
Proof.
  intros F. unfold handle, respond, delete_task, find_task_by_id, bind,
    read_tasks_storage, ret. rewrite F. reflexivity.
Qed.

Lemma handle_DELETE_found (s : Store) (task_id : Z) (t : Task.t) :
  find_task_loop task_id (tasks_storage s) = Some t ->
  exists l1 l2,
    tasks_storage s = l1 ++ t :: l2
    /\ Forall (fun x => Task.id x <> task_id) l1
    /\ Task.id t = task_id
    /\ handle (DELETE_tasks task_id) s
       = ({| status := 200;
             content := Deleted_body {| message_task_id := task_id;
                                        deleted_task := to_response t |} |},
          {| tasks_storage := l1 ++ l2; next_task_id := next_task_id s |}).
Proof.
  intros F. destruct (find_then_remove _ _ _ F) as [l1 [l2 [El [Fl [Hid R]]]]].
  exists l1, l2. repeat split; auto.
  unfold handle, respond, delete_task, find_task_by_id, bind,
    read_tasks_storage, ret, tasks_storage_remove. rewrite F. simpl.
  rewrite R. reflexivity.
Qed.

Lemma handle_shape (r : request) (s : Store) :
  step_shape s (fst (handle r s)) (snd (handle r s)).
Proof.
  destruct r as [| |text|task_id|].
  - apply step_same. reflexivity.
  - apply step_same. reflexivity.
  - destruct (TaskCreate.valid text) eqn:V.
    + rewrite (handle_POST_valid _ _ V). simpl.
      apply step_create; [exact V | reflexivity].
    + rewrite (handle_POST_invalid _ _ V). apply step_same.
      apply refusal_assigned_id.
  - destruct (find_task_loop task_id (tasks_storage s)) as [t|] eqn:F.
    + destruct (handle_DELETE_found _ _ _ F) as [l1 [l2 [El [_ [_ H]]]]].
      rewrite H. simpl. apply (step_delete s _ l1 l2 t); [reflexivity|exact El].
    + rewrite (handle_DELETE_missing _ _ F). apply step_same. reflexivity.
  - apply step_same. reflexivity.
Qed.

(** ** Runs *)

Lemma run_cons (r : request) (reqs : list request) (s : Store) :
  run (r :: reqs) s
  = (fst (handle r s) :: responses reqs (snd (handle r s)),
     final reqs (snd (handle r s))).
Proof.
  unfold responses, final. simpl.
  destruct (handle r s) as [resp s1]. simpl.
  destruct (run reqs s1) as [resps s2]. reflexivity.
Qed.

Lemma responses_cons (r : request) (reqs : list request) (s : Store) :
  responses (r :: reqs) s
  = fst (handle r s) :: responses reqs (snd (handle r s)).
Proof. unfold responses at 1. rewrite run_cons. reflexivity. Qed.

Lemma final_cons (r : request) (reqs : list request) (s : Store) :
  final (r :: reqs) s = final reqs (snd (handle r s)).
Proof. unfold final at 1. rewrite run_cons. reflexivity. Qed.

Lemma final_nil (s : Store) : final [] s = s.
Proof. reflexivity. Qed.

Lemma final_app (a b : list request) (s : Store) :
  final (a ++ b) s = final b (final a s).
Proof.
  revert s. induction a as [|r a IH]; intros s; [reflexivity|].
  simpl app. rewrite !final_cons. apply IH.
Qed.

(** A property of stores that every step keeps holds along every run. *)
Lemma run_induction (P : Store -> Prop) :
  (forall s resp s', P s -> step_shape s resp s' -> P s') ->
  forall reqs s, P s -> P (final reqs s).
Proof.
  intros Hstep reqs. induction reqs as [|r reqs IH]; intros s Hs.
  - exact Hs.
  - rewrite final_cons. apply IH.
    exact (Hstep _ _ _ Hs (handle_shape r s)).
Qed.

(** ** The ids a run assigns *)

(** The ids assigned along a run are the consecutive values of the counter:
    increasing, at least the counter's value at the start, below its value
    at the end, and the counter has advanced by their number. *)
Lemma run_assigned_ids (reqs : list request) (s : Store) :
  StronglySorted Z.lt (assigned_ids (responses reqs s))
  /\ Forall (fun i => next_task_id s <= i < next_task_id (final reqs s))
            (assigned_ids (responses reqs s))
  /\ next_task_id (final reqs s)
     = next_task_id s + Py.len (assigned_ids (responses reqs s)).
Proof.
  revert s. induction reqs as [|r reqs IH]; intros s.
  - unfold Py.len, final, responses. simpl.
    repeat split; [constructor | constructor | lia].
  - rewrite responses_cons, final_cons.
    pose proof (handle_shape r s) as Sh.
    destruct (IH (snd (handle r s))) as [So [Bd Nx]].
    remember (fst (handle r s)) as resp. remember (snd (handle r s)) as s1.
    clear Heqresp Heqs1.
    assert (Hcase : (assigned_id resp = None /\ next_task_id s1 = next_task_id s)
                    \/ (assigned_id resp = Some (next_task_id s)
                        /\ next_task_id s1 = next_task_id s + 1)).
    { inversion Sh; subst; simpl; auto. }
    simpl assigned_ids.
    destruct Hcase as [[E N1] | [E N1]]; rewrite E.
    + rewrite N1 in *. repeat split; assumption.
    + rewrite N1 in *. repeat split.
      * constructor; [exact So|].
        eapply Forall_impl; [|exact Bd]. simpl. intros; lia.
      * constructor.
        -- unfold Py.len in Nx. lia.
        -- eapply Forall_impl; [|exact Bd]. simpl. intros; lia.
      * unfold Py.len in *. cbn [List.length]. lia.
Qed.

Lemma StronglySorted_lt_NoDup (l : list Z) : StronglySorted Z.lt l -> NoDup l.
Proof.
  induction 1 as [|x l S IH F]; constructor; [|exact IH].
  intros In_x. rewrite Forall_forall in F. specialize (F _ In_x). lia.
Qed.

Lemma next_task_id_monotone (reqs : list request) (s : Store) :
  next_task_id s <= next_task_id (final reqs s).
Proof.
  destruct (run_assigned_ids reqs s) as [_ [_ E]]. rewrite E.
  unfold Py.len. lia.
Qed.

(** ** The store invariant *)

Lemma Forall_drop_middle {A : Type} (P : A -> Prop) (l1 l2 : list A) (x : A) :
  Forall P (l1 ++ x :: l2) -> Forall P (l1 ++ l2).
Proof.
  rewrite !Forall_app. intros [H1 H2]. inversion H2; subst. auto.
Qed.

Lemma sorted_drop_middle (l1 l2 : list Z) (x : Z) :
  StronglySorted Z.lt (l1 ++ x :: l2) -> StronglySorted Z.lt (l1 ++ l2).
Proof.
  induction l1 as [|y l1 IH]; simpl; intros H; inversion H; subst.
  - assumption.
  - constructor; [apply IH; assumption|].
    eapply Forall_drop_middle; eassumption.
Qed.

Lemma sorted_snoc (l : list Z) (n : Z) :
  StronglySorted Z.lt l -> Forall (fun x => x < n) l ->
  StronglySorted Z.lt (l ++ [n]).
Proof.
  induction 1 as [|y l S IH F]; simpl; intros B.
  - repeat constructor.
  - inversion B; subst. constructor; [apply IH; assumption|].
    apply Forall_app. split; [exact F|]. repeat constructor. assumption.
Qed.

(** In a sorted list of ids the id in the middle occurs nowhere else. *)
Lemma sorted_middle_unique (l1 l2 : list Task.t) (t : Task.t) :
  StronglySorted Z.lt (map Task.id (l1 ++ t :: l2)) ->
  Forall (fun x => Task.id x <> Task.id t) l1
  /\ Forall (fun x => Task.id x <> Task.id t) l2.
Proof.
  induction l1 as [|y l1 IH]; simpl; intros H; inversion H as [|? ? S F]; subst.
  - split; [constructor|].
    rewrite Forall_map in F. eapply Forall_impl; [|exact F].
    simpl. intros; lia.
  - destruct (IH S) as [H1 H2]. split; [|exact H2].
    constructor; [|exact H1].
    rewrite map_app, Forall_app in F. destruct F as [_ F].
    inversion F; subst. lia.
Qed.

Lemma store_ok_initial : store_ok initial_store.
Proof. split; simpl; try constructor; lia. Qed.

Lemma store_ok_step (s s' : Store) (resp : response) :
  store_ok s -> step_shape s resp s' -> store_ok s'.
Proof.
  intros [C B S T] Sh. inversion Sh as [|? text V _|? l1 l2 t _ El]; subst.
  - split; assumption.
  - split; simpl.
    + lia.
    + apply Forall_app. split.
      * eapply Forall_impl; [|exact B]. simpl. intros; lia.
      * repeat constructor; simpl; lia.
    + rewrite map_app. simpl. apply sorted_snoc; [exact S|].
      rewrite Forall_map. eapply Forall_impl; [|exact B]. simpl. intros; lia.
    + apply Forall_app. split; [exact T|]. repeat constructor. simpl.
      unfold TaskCreate.valid in V. apply andb_prop in V. destruct V as [_ V].
      apply Z.leb_le in V. pose proof (PyFacts.strip_length text).
      unfold Py.len in *. lia.
  - rewrite El in *. split; simpl.
    + assumption.
    + eapply Forall_drop_middle; eassumption.
    + rewrite map_app in *. simpl in S. eapply sorted_drop_middle; eassumption.
    + eapply Forall_drop_middle; eassumption.
Qed.

Lemma store_ok_final (reqs : list request) (s : Store) :
  store_ok s -> store_ok (final reqs s).
Proof.
  apply (run_induction store_ok). intros ? ? ? H Sh.
  exact (store_ok_step _ _ _ H Sh).
Qed.

Lemma store_ok_reachable (s : Store) : reachable s -> store_ok s.
Proof.
  intros [reqs <-]. apply store_ok_final, store_ok_initial.
Qed.

(** An id below the counter that no stored task carries stays absent: later
    creations take their ids from the counter, which only grows. *)
Lemma absent_id_stays_absent (task_id : Z) (reqs : list request) (s : Store) :
  task_id < next_task_id s ->
  Forall (fun t => Task.id t <> task_id) (tasks_storage s) ->
  task_id < next_task_id (final reqs s)
  /\ Forall (fun t => Task.id t <> task_id) (tasks_storage (final reqs s)).
Proof.
  intros B A.
  apply (run_induction
           (fun s => task_id < next_task_id s
                     /\ Forall (fun t => Task.id t <> task_id) (tasks_storage s)));
    [|split; assumption].
  clear. intros s resp s' [B A] Sh.
  inversion Sh as [|? text V _|? l1 l2 t _ El]; subst; simpl.
  - split; assumption.
  - split; [lia|]. apply Forall_app. split; [exact A|].
    repeat constructor. simpl. lia.
  - split; [exact B|]. rewrite El in A.
    eapply Forall_drop_middle; eassumption.
Qed.

Lemma list_op_eq (s : Store) :
  list_op s
  = ({| status := 200; content := Tasks_body (map to_response (tasks_storage s)) |},
     s).
Proof. reflexivity. Qed.

(** One request moves the counter by one when it creates a task and leaves it
    alone otherwise. *)
Lemma handle_counter (r : request) (s : Store) :
  (assigned_id (fst (handle r s)) = None
   /\ next_task_id (snd (handle r s)) = next_task_id s)
  \/ (assigned_id (fst (handle r s)) = Some (next_task_id s)
      /\ next_task_id (snd (handle r s)) = next_task_id s + 1).
Proof.
  pose proof (handle_shape r s) as Sh.
  inversion Sh as [? E|? text V E|? l1 l2 t E El]; simpl; auto.
  left. split; [exact E | congruence].
Qed.

(** Ids at or above the counter have not been issued: no stored task has
    one. *)
Lemma unissued_id_absent (s : Store) (task_id : Z) :
  store_ok s -> next_task_id s <= task_id ->
  Forall (fun t => Task.id t <> task_id) (tasks_storage s).
Proof.
  intros Ok B. eapply Forall_impl; [|exact (ok_below _ Ok)].
  simpl. intros; lia.
Qed.

(** ** Task text *)

(** What the length check and the trimming together give: a stored text is
    never longer than 200 characters. *)
Lemma stored_text_at_most_200 (reqs : list request) :
  Forall (fun t => Py.len (Task.text t) <= 200)
         (tasks_storage (final reqs initial_store)).
Proof.
  exact (ok_text _ (store_ok_final reqs _ store_ok_initial)).
Qed.

(** The empty text is refused. *)
Lemma empty_text_rejected (s : Store) :
  create_op [] s = ({| status := 422; content := Validation_error |}, s).
Proof. reflexivity. Qed.

(** An accepted text is stored empty exactly when it is all blanks. *)
Lemma stored_text_empty_iff (s : Store) (text : Py.str) :
  TaskCreate.valid text = true ->
  (exists t, tasks_storage (snd (create_op text s)) = tasks_storage s ++ [t]
             /\ (Task.text t = [] <-> forallb Py.isspace text = true)).
Proof.
  intros V. unfold create_op. rewrite (handle_POST_valid _ _ V). simpl.
  exists (created s text). split; [reflexivity|]. apply PyFacts.strip_nil_iff.
Qed.

(** C1 (evaluated on the code): the length check of [TaskCreate] runs on the
    text as sent and the trimming comes after it, so a text made of one space
    passes the check and is stored as a task with the empty text. The claim
    that no stored task has an empty text, and that a text of blanks only is
    rejected, fails there. *)
Theorem C1_blank_text_is_stored_empty :
  TaskCreate.valid (Py.of_string " ") = true
  /\ run [POST_tasks (Py.of_string " ")] initial_store
     = ([ {| status := 201;
             content := Task_body {| TaskResponse.id := 1;
                                     TaskResponse.text := [] |} |} ],
        {| tasks_storage := [ {| Task.id := 1; Task.text := [] |} ];
           next_task_id := 2 |}).
Proof. split; reflexivity. Qed.

(** ** Identifiers *)

(** C2: along every sequence of requests handled from the initial store, the
    ids assigned by the successive creations are strictly increasing, hence
    without duplicates, and the id of a task that a delete has removed is not
    assigned by any later creation. *)
Theorem C2_assigned_ids_increasing_never_reused (reqs : list request) :
  let ids := assigned_ids (responses reqs initial_store) in
  StronglySorted Z.lt ids
  /\ NoDup ids
  /\ forall pre task_id post,
       reqs = pre ++ DELETE_tasks task_id :: post ->
       status (fst (delete_op task_id (final pre initial_store))) = 200 ->
       ~ In task_id
            (assigned_ids
               (responses post
                  (final (pre ++ [DELETE_tasks task_id]) initial_store))).
Proof.
  destruct (run_assigned_ids reqs initial_store) as [So _].
  split; [exact So|]. split; [exact (StronglySorted_lt_NoDup _ So)|].
  intros pre task_id post _ St Hin.
  pose proof (store_ok_final pre _ store_ok_initial) as Ok.
  rewrite final_app, final_cons, final_nil in Hin.
  set (s0 := final pre initial_store) in *.
  unfold delete_op in St.
  destruct (find_task_loop task_id (tasks_storage s0)) as [t|] eqn:F.
  - destruct (handle_DELETE_found _ _ _ F) as [l1 [l2 [El [_ [Hid H]]]]].
    rewrite H in Hin. simpl in Hin.
    destruct (run_assigned_ids post
                {| tasks_storage := l1 ++ l2; next_task_id := next_task_id s0 |})
      as [_ [Bd _]].
    rewrite Forall_forall in Bd. specialize (Bd _ Hin). simpl in Bd.
    pose proof (ok_below _ Ok) as B. rewrite El, Forall_app in B.
    destruct B as [_ B]. inversion B; subst. lia.
  - rewrite (handle_DELETE_missing _ _ F) in St. simpl in St. discriminate.
Qed.

Lemma C2_witness :
  status (fst (delete_op 1 (final [POST_tasks (Py.of_string "a")] initial_store)))
  = 200
  /\ ~ In 1 (assigned_ids
               (responses [POST_tasks (Py.of_string "b")]
                  (final ([POST_tasks (Py.of_string "a")] ++ [DELETE_tasks 1])
                     initial_store))).
Proof.
  split; [reflexivity|].
  destruct (C2_assigned_ids_increasing_never_reused
              [POST_tasks (Py.of_string "a"); DELETE_tasks 1;
               POST_tasks (Py.of_string "b")]) as [_ [_ Never]].
  apply (Never [POST_tasks (Py.of_string "a")] 1 [POST_tasks (Py.of_string "b")]);
    reflexivity.
Defined.

(** ** Create *)

(** C3: create, run on the text of any request object, trims the blanks
    around the text, gives the new task the current value of the counter as
    its id, appends it at the end of the stored sequence, adds exactly one
    to the counter and returns the task (its id and the trimmed text); it
    raises nothing, whatever the text, so in particular for every text that
    passed validation. Trimming takes a run of blanks off each end and what
    is left neither starts nor ends with a blank. At the boundary, a text
    that passes the check of the request model is answered 201 with that
    task. *)
Theorem C3_create_trims_assigns_appends (s : Store) (task_data : TaskCreate.t) :
  let text := TaskCreate.text task_data in
  let new_task := {| Task.id := next_task_id s; Task.text := Py.strip text |} in
  create_task task_data s
  = (Return {| TaskResponse.id := next_task_id s;
               TaskResponse.text := Py.strip text |},
     {| tasks_storage := tasks_storage s ++ [new_task];
        next_task_id := next_task_id s + 1 |})
  /\ (exists l r, text = l ++ Py.strip text ++ r
                  /\ forallb Py.isspace l = true
                  /\ forallb Py.isspace r = true)
  /\ (forall c rest, Py.strip text = c :: rest -> Py.isspace c = false)
  /\ (forall rest c, Py.strip text = rest ++ [c] -> Py.isspace c = false)
  /\ (TaskCreate.valid text = true ->
      create_op text s
      = ({| status := 201;
            content := Task_body {| TaskResponse.id := next_task_id s;
                                    TaskResponse.text := Py.strip text |} |},
         {| tasks_storage := tasks_storage s ++ [new_task];
            next_task_id := next_task_id s + 1 |})).
Proof.
  intros text new_task. split; [|split; [|split; [|split]]].
  - reflexivity.
  - apply PyFacts.strip_split.
  - apply PyFacts.strip_ends.
  - apply PyFacts.strip_ends.
  - intros V. unfold create_op. rewrite (handle_POST_valid _ _ V). reflexivity.
Qed.

Lemma C3_witness :
  create_task (TaskCreate.mk (Py.of_string "  buy milk  ")) initial_store
  = (Return {| TaskResponse.id := 1;
               TaskResponse.text := Py.of_string "buy milk" |},
     {| tasks_storage := [ {| Task.id := 1;
                              Task.text := Py.of_string "buy milk" |} ];
        next_task_id := 2 |})
  /\ create_op (Py.of_string "  buy milk  ") initial_store
     = ({| status := 201;
           content := Task_body {| TaskResponse.id := 1;
                                   TaskResponse.text := Py.of_string "buy milk" |} |},
        {| tasks_storage := [ {| Task.id := 1;
                                 Task.text := Py.of_string "buy milk" |} ];
           next_task_id := 2 |}).
Proof.
  destruct (C3_create_trims_assigns_appends initial_store
              (TaskCreate.mk (Py.of_string "  buy milk  ")))
    as [Run [_ [_ [_ Boundary]]]].
  split; [exact Run | exact (Boundary eq_refl)].
Defined.

(** The check of the request model counts the blanks that trimming will
    remove: a letter repeated 199 times between two spaces would be stored
    with 199 characters, and is refused for its 201. *)
Example padded_text_refused_at_boundary :
  let text := 32%N :: repeat 97%N 199 ++ [32%N] in
  Py.len (Py.strip text) = 199
  /\ create_op text initial_store
     = ({| status := 422; content := Validation_error |}, initial_store).
Proof. split; reflexivity. Qed.

(** ** Delete *)

(** C4: when no stored task has the id asked for, delete raises the 404
    exception whose detail names that id, answered as 404, and the store is
    the same afterwards: same tasks, same counter. *)
Theorem C4_delete_absent_id (s : Store) (task_id : Z) :
  (forall t, In t (tasks_storage s) -> Task.id t <> task_id) ->
  delete_task task_id s
  = (Raise (HTTPException 404 (Task_not_found task_id)), s)
  /\ delete_op task_id s
     = ({| status := 404; content := Error_body (Task_not_found task_id) |}, s).
Proof.
  intros A.
  assert (F : find_task_loop task_id (tasks_storage s) = None).
  { apply find_task_loop_none, Forall_forall. exact A. }
  split.
  - unfold delete_task, find_task_by_id, bind, read_tasks_storage, ret.
    rewrite F. reflexivity.
  - exact (handle_DELETE_missing _ _ F).
Qed.

Lemma C4_witness :
  delete_op 1 (final [POST_tasks (Py.of_string "a"); DELETE_tasks 1] initial_store)
  = ({| status := 404; content := Error_body (Task_not_found 1) |},
     final [POST_tasks (Py.of_string "a"); DELETE_tasks 1] initial_store).
Proof.
  apply (C4_delete_absent_id
           (final [POST_tasks (Py.of_string "a"); DELETE_tasks 1] initial_store) 1).
  intros t H. destruct H.
Defined.

(** C5: in a store the service can be in, deleting the id of a stored task
    takes out the first task with that id, which is the only one, answers
    200 with that task's id and text, and no task with that id is listed
    after any further sequence of requests. *)
Theorem C5_delete_present_id (reqs : list request) (task_id : Z) (t : Task.t) :
  let s := final reqs initial_store in
  In t (tasks_storage s) ->
  Task.id t = task_id ->
  exists l1 l2,
    tasks_storage s = l1 ++ t :: l2
    /\ Forall (fun x => Task.id x <> task_id) l1
    /\ Forall (fun x => Task.id x <> task_id) l2
    /\ delete_op task_id s
       = ({| status := 200;
             content :=
               Deleted_body
                 {| message_task_id := task_id;
                    deleted_task := {| TaskResponse.id := task_id;
                                       TaskResponse.text := Task.text t |} |} |},
          {| tasks_storage := l1 ++ l2; next_task_id := next_task_id s |})
    /\ forall later,
         exists listed,
           fst (list_op (final later (snd (delete_op task_id s))))
           = {| status := 200; content := Tasks_body listed |}
           /\ Forall (fun r => TaskResponse.id r <> task_id) listed
           /\ ~ In (to_response t) listed.
Proof.
  intros s Hin Hid.
  pose proof (store_ok_final reqs _ store_ok_initial) as Ok. fold s in Ok.
  destruct (find_task_loop task_id (tasks_storage s)) as [t'|] eqn:F.
  2:{ apply find_task_loop_none in F. rewrite Forall_forall in F.
      exfalso. exact (F _ Hin Hid). }
  destruct (handle_DELETE_found _ _ _ F) as [l1 [l2 [El [F1 [Hid' H]]]]].
  pose proof (ok_sorted _ Ok) as So. rewrite El in So.
  destruct (sorted_middle_unique _ _ _ So) as [_ F2]. rewrite Hid' in F2.
  assert (t' = t) as ->.
  { rewrite El in Hin. apply in_app_or in Hin. destruct Hin as [Hin|[Hin|Hin]].
    - rewrite Forall_forall in F1. exfalso. exact (F1 _ Hin Hid).
    - exact Hin.
    - rewrite Forall_forall in F2. exfalso. exact (F2 _ Hin Hid). }
  exists l1, l2. split; [exact El|]. split; [exact F1|]. split; [exact F2|].
  split.
  - unfold delete_op. rewrite H. unfold to_response. rewrite Hid. reflexivity.
  - intros later. unfold delete_op. rewrite H. simpl snd.
    set (s1 := {| tasks_storage := l1 ++ l2; next_task_id := next_task_id s |}).
    assert (B : task_id < next_task_id s1).
    { pose proof (ok_below _ Ok) as B. rewrite El, Forall_app in B.
      destruct B as [_ B]. inversion B; subst. simpl. lia. }
    assert (A : Forall (fun x => Task.id x <> task_id) (tasks_storage s1)).
    { simpl. apply Forall_app. split; assumption. }
    destruct (absent_id_stays_absent task_id later s1 B A) as [_ A'].
    exists (map to_response (tasks_storage (final later s1))).
    split; [rewrite list_op_eq; reflexivity|].
    assert (G : Forall (fun r => TaskResponse.id r <> task_id)
                       (map to_response (tasks_storage (final later s1)))).
    { rewrite Forall_map. exact A'. }
    split; [exact G|].
    intros Hl. rewrite Forall_forall in G. apply (G _ Hl). simpl. exact Hid.
Qed.

Lemma C5_witness :
  In {| Task.id := 1; Task.text := Py.of_string "a" |}
     (tasks_storage
        (final [POST_tasks (Py.of_string "a"); POST_tasks (Py.of_string "b")]
           initial_store))
  /\ exists l1 l2,
       tasks_storage
         (final [POST_tasks (Py.of_string "a"); POST_tasks (Py.of_string "b")]
            initial_store)
       = l1 ++ {| Task.id := 1; Task.text := Py.of_string "a" |} :: l2
       /\ Forall (fun x => Task.id x <> 1) l1
       /\ Forall (fun x => Task.id x <> 1) l2.
Proof.
  split; [left; reflexivity|].
  destruct (C5_delete_present_id
              [POST_tasks (Py.of_string "a"); POST_tasks (Py.of_string "b")]
              1 {| Task.id := 1; Task.text := Py.of_string "a" |}
              (or_introl eq_refl) eq_refl)
    as [l1 [l2 [El [F1 [F2 _]]]]].
  exists l1, l2. auto.
Defined.

Lemma tasks_created_length (n : Z) (texts : list Py.str) :
  List.length (tasks_created n texts) = List.length texts.
Proof.
  revert n. induction texts as [|x texts IH]; intros n; simpl; [reflexivity|].
  rewrite IH. reflexivity.
Qed.

Lemma final_creates (texts : list Py.str) (s : Store) :
  Forall (fun x => TaskCreate.valid x = true) texts ->
  final (map POST_tasks texts) s
  = {| tasks_storage := tasks_storage s ++ tasks_created (next_task_id s) texts;
       next_task_id := next_task_id s + Py.len texts |}.
Proof.
  intros V. revert s. induction V as [|x texts Vx V IH]; intros s.
  - rewrite final_nil. destruct s as [l n]. unfold Py.len. simpl.
    rewrite app_nil_r, Z.add_0_r. reflexivity.
  - simpl map. rewrite final_cons, (handle_POST_valid _ _ Vx). simpl snd.
    rewrite IH. simpl. rewrite <- app_assoc. simpl. f_equal.
    unfold Py.len. cbn [List.length]. lia.
Qed.

(** C6: a delete that succeeds takes exactly one task out of the stored
    sequence and leaves the others where they were, in the same order, which
    is what list then returns; and after creating N >= 1 tasks from the
    initial store, deleting the first one (id 1) leaves list with the other
    N-1 tasks, in the order they had. *)
Theorem C6_delete_keeps_order :
  (forall s task_id,
      status (fst (delete_op task_id s)) = 200 ->
      exists l1 t l2,
        tasks_storage s = l1 ++ t :: l2
        /\ Task.id t = task_id
        /\ tasks_storage (snd (delete_op task_id s)) = l1 ++ l2
        /\ fst (list_op (snd (delete_op task_id s)))
           = {| status := 200; content := Tasks_body (map to_response (l1 ++ l2)) |})
  /\ (forall first rest,
         Forall (fun x => TaskCreate.valid x = true) (first :: rest) ->
         let s1 := final (map POST_tasks (first :: rest)) initial_store in
         let s2 := snd (delete_op 1 s1) in
         exists t ts,
           fst (list_op s1) = {| status := 200; content := Tasks_body (t :: ts) |}
           /\ t = {| TaskResponse.id := 1; TaskResponse.text := Py.strip first |}
           /\ status (fst (delete_op 1 s1)) = 200
           /\ fst (list_op s2) = {| status := 200; content := Tasks_body ts |}
           /\ Py.len ts = Py.len (first :: rest) - 1).
Proof.
  split.
  - intros s task_id St. unfold delete_op in *.
    destruct (find_task_loop task_id (tasks_storage s)) as [t|] eqn:F.
    + destruct (handle_DELETE_found _ _ _ F) as [l1 [l2 [El [_ [Hid H]]]]].
      exists l1, t, l2. rewrite H. simpl. repeat split; assumption.
    + rewrite (handle_DELETE_missing _ _ F) in St. discriminate.
  - intros first rest V s1 s2.
    assert (E1 : s1 = {| tasks_storage :=
                           {| Task.id := 1; Task.text := Py.strip first |}
                             :: tasks_created 2 rest;
                         next_task_id := 1 + Py.len (first :: rest) |}).
    { unfold s1. rewrite (final_creates _ _ V). reflexivity. }
    assert (E2 : delete_op 1 s1
                 = ({| status := 200;
                       content := Deleted_body
                         {| message_task_id := 1;
                            deleted_task :=
                              {| TaskResponse.id := 1;
                                 TaskResponse.text := Py.strip first |} |} |},
                    {| tasks_storage := tasks_created 2 rest;
                       next_task_id := 1 + Py.len (first :: rest) |})).
    { rewrite E1.
      unfold delete_op, handle, respond, delete_task, find_task_by_id, bind,
        read_tasks_storage, ret, tasks_storage_remove.
      cbn [find_task_loop tasks_storage Task.id Z.eqb Pos.eqb].
      cbn [Py.list_remove]. rewrite Task_eqb_refl. reflexivity. }
    exists {| TaskResponse.id := 1; TaskResponse.text := Py.strip first |},
           (map to_response (tasks_created 2 rest)).
    assert (L : Py.len (map to_response (tasks_created 2 rest))
                = Py.len (first :: rest) - 1).
    { unfold Py.len. rewrite length_map, tasks_created_length.
      cbn [List.length]. lia. }
    unfold s2. rewrite E2. rewrite E1. rewrite !list_op_eq.
    cbn [fst snd tasks_storage status map to_response Task.id Task.text].
    repeat split. exact L.
Qed.

Lemma C6_witness :
  Forall (fun x => TaskCreate.valid x = true)
         [Py.of_string "a"; Py.of_string "b"; Py.of_string "c"]
  /\ status (fst (delete_op 1
                    (final (map POST_tasks [Py.of_string "a"; Py.of_string "b";
                                            Py.of_string "c"]) initial_store)))
     = 200
  /\ exists ts,
       fst (list_op
              (snd (delete_op 1
                      (final (map POST_tasks [Py.of_string "a"; Py.of_string "b";
                                              Py.of_string "c"]) initial_store))))
       = {| status := 200; content := Tasks_body ts |}
       /\ Py.len ts = 3 - 1.
Proof.
  assert (V : Forall (fun x => TaskCreate.valid x = true)
                     [Py.of_string "a"; Py.of_string "b"; Py.of_string "c"]).
  { repeat constructor. }
  split; [exact V|].
  destruct (proj2 C6_delete_keeps_order (Py.of_string "a")
              [Py.of_string "b"; Py.of_string "c"] V)
    as [t [ts [_ [_ [St [L N]]]]]].
  split; [exact St|]. exists ts. split; [exact L | exact N].
Defined.

(** ** List *)

Lemma tasks_created_ids (n : Z) (texts : list Py.str) :
  map Task.id (tasks_created n texts)
  = map (fun k => n + Z.of_nat k) (seq 0 (List.length texts)).
Proof.
  revert n. induction texts as [|x texts IH]; intros n; [reflexivity|].
  cbn [tasks_created map List.length seq Task.id]. rewrite Z.add_0_r. f_equal.
  rewrite IH, <- seq_shift, map_map. apply map_ext. intros k. lia.
Qed.

Lemma tasks_created_texts (n : Z) (texts : list Py.str) :
  map Task.text (tasks_created n texts) = map Py.strip texts.
Proof.
  revert n. induction texts as [|x texts IH]; intros n; [reflexivity|].
  cbn [tasks_created map Task.text]. rewrite IH. reflexivity.
Qed.

(** C7: in any store list answers 200 with one entry per stored task, in the
    order the tasks are stored, each entry carrying the id and the text of
    its task; it raises nothing and leaves the store (tasks and counter) as
    it was. In a store the service can be in, that order is the order of
    creation: the listed ids increase; and after creating N accepted texts
    from the initial store, list returns the ids 1 to N with the trimmed
    texts, in the order of the creations. *)
Theorem C7_list_is_pure :
  (forall s,
      exists listed,
        get_tasks s = (Return listed, s)
        /\ list_op s = ({| status := 200; content := Tasks_body listed |}, s)
        /\ listed
           = map (fun t => {| TaskResponse.id := Task.id t;
                              TaskResponse.text := Task.text t |})
                 (tasks_storage s)
        /\ map TaskResponse.id listed = map Task.id (tasks_storage s)
        /\ map TaskResponse.text listed = map Task.text (tasks_storage s))
  /\ (forall reqs,
         exists listed,
           fst (list_op (final reqs initial_store))
           = {| status := 200; content := Tasks_body listed |}
           /\ StronglySorted Z.lt (map TaskResponse.id listed))
  /\ (forall texts,
         Forall (fun x => TaskCreate.valid x = true) texts ->
         exists listed,
           fst (list_op (final (map POST_tasks texts) initial_store))
           = {| status := 200; content := Tasks_body listed |}
           /\ map TaskResponse.id listed
              = map (fun k => 1 + Z.of_nat k) (seq 0 (List.length texts))
           /\ map TaskResponse.text listed = map Py.strip texts).
Proof.
  split; [|split].
  - intros s. exists (map to_response (tasks_storage s)).
    split; [reflexivity|]. split; [reflexivity|]. split; [reflexivity|].
    rewrite !map_map. split; reflexivity.
  - intros reqs.
    exists (map to_response (tasks_storage (final reqs initial_store))).
    split; [reflexivity|]. rewrite map_map. simpl.
    exact (ok_sorted _ (store_ok_final reqs _ store_ok_initial)).
  - intros texts V.
    exists (map to_response
              (tasks_storage (final (map POST_tasks texts) initial_store))).
    split; [reflexivity|]. rewrite (final_creates _ _ V), !map_map.
    cbn [tasks_storage initial_store app next_task_id].
    change (fun x => TaskResponse.id (to_response x)) with Task.id.
    change (fun x => TaskResponse.text (to_response x)) with Task.text.
    split; [apply tasks_created_ids | apply tasks_created_texts].
Qed.

Lemma C7_witness :
  exists listed,
    fst (list_op (final (map POST_tasks [Py.of_string " a"; Py.of_string "b "])
                    initial_store))
    = {| status := 200; content := Tasks_body listed |}
    /\ map TaskResponse.id listed = [1; 2]
    /\ map TaskResponse.text listed = [Py.of_string "a"; Py.of_string "b"].
Proof.
  apply (proj2 (proj2 C7_list_is_pure) [Py.of_string " a"; Py.of_string "b "]).
  repeat constructor.
Defined.

(** ** The counter *)

(** C8: the counter starts at 1; a request that creates a task adds exactly
    one to it and any other request leaves it as it is, so it never
    decreases; and after any sequence of requests from the initial store it
    is greater than every id assigned along the way and than the id of every
    stored task, being one more than the number of tasks created. *)
Theorem C8_counter :
  next_task_id initial_store = 1
  /\ (forall r s,
         next_task_id (snd (handle r s))
         = next_task_id s
           + match assigned_id (fst (handle r s)) with Some _ => 1 | None => 0 end)
  /\ (forall s text,
         TaskCreate.valid text = true ->
         next_task_id (snd (create_op text s)) = next_task_id s + 1)
  /\ (forall reqs s, next_task_id s <= next_task_id (final reqs s))
  /\ (forall reqs,
         let s := final reqs initial_store in
         let ids := assigned_ids (responses reqs initial_store) in
         Forall (fun i => 1 <= i < next_task_id s) ids
         /\ Forall (fun t => 1 <= Task.id t < next_task_id s) (tasks_storage s)
         /\ next_task_id s = 1 + Py.len ids).
Proof.
  split; [reflexivity|]. split; [|split; [|split]].
  - intros r s. destruct (handle_counter r s) as [[E N]|[E N]];
      rewrite E, N; lia.
  - intros s text V. unfold create_op. rewrite (handle_POST_valid _ _ V).
    reflexivity.
  - exact next_task_id_monotone.
  - intros reqs s ids.
    destruct (run_assigned_ids reqs initial_store) as [_ [B N]].
    split; [exact B|]. split; [|exact N].
    exact (ok_below _ (store_ok_final reqs _ store_ok_initial)).
Qed.

Lemma C8_witness :
  next_task_id (snd (create_op (Py.of_string "a") initial_store)) = 1 + 1.
Proof.
  exact (proj1 (proj2 (proj2 C8_counter)) initial_store (Py.of_string "a") eq_refl).
Defined.

(** ** A scenario *)

(** C9: from the initial store, create "a" gets id 1, create "b" gets id 2,
    delete 1 succeeds and returns id 1 with text "a", list returns exactly
    the task with id 2 and text "b", and deleting 1 again is answered 404,
    not found. *)
Theorem C9_scenario :
  run [ POST_tasks (Py.of_string "a"); POST_tasks (Py.of_string "b");
        DELETE_tasks 1; GET_tasks; DELETE_tasks 1 ] initial_store
  = ([ {| status := 201;
          content := Task_body {| TaskResponse.id := 1;
                                  TaskResponse.text := Py.of_string "a" |} |};
       {| status := 201;
          content := Task_body {| TaskResponse.id := 2;
                                  TaskResponse.text := Py.of_string "b" |} |};
       {| status := 200;
          content := Deleted_body
            {| message_task_id := 1;
               deleted_task := {| TaskResponse.id := 1;
                                  TaskResponse.text := Py.of_string "a" |} |} |};
       {| status := 200;
          content := Tasks_body
            [ {| TaskResponse.id := 2; TaskResponse.text := Py.of_string "b" |} ] |};
       {| status := 404; content := Error_body (Task_not_found 1) |} ],
     {| tasks_storage := [ {| Task.id := 2; Task.text := Py.of_string "b" |} ];
        next_task_id := 3 |}).
Proof. reflexivity. Qed.

(** C10: delete never changes the counter, whether it removes a task or
    raises not found; of all the requests only a create can change it. *)
Theorem C10_delete_keeps_counter :
  (forall s task_id,
      next_task_id (snd (delete_task task_id s)) = next_task_id s
      /\ next_task_id (snd (delete_op task_id s)) = next_task_id s)
  /\ (forall r s,
         match r with
         | POST_tasks _ => True
         | _ => next_task_id (snd (handle r s)) = next_task_id s
         end).
Proof.
  assert (D : forall s task_id,
             next_task_id (snd (delete_op task_id s)) = next_task_id s).
  { intros s task_id. unfold delete_op.
    destruct (handle_counter (DELETE_tasks task_id) s) as [[_ N]|[E _]];
      [exact N|].
    exfalso. revert E. unfold handle, respond, assigned_id.
    destruct (delete_task task_id s) as [[d|[c d|]] s']; simpl; discriminate. }
  split.
  - intros s task_id. split; [|apply D].
    specialize (D s task_id). unfold delete_op, handle, respond in D.
    destruct (delete_task task_id s) as [[d|[c d|]] s']; exact D.
  - intros [| |text|task_id|] s; try reflexivity. apply D.
Qed.

(** * Further properties of the handlers *)

(** ** One request, case by case *)

Lemma handle_cases (r : request) (s : Store) :
  (snd (handle r s) = s
   /\ assigned_id (fst (handle r s)) = None
   /\ deleted_id (fst (handle r s)) = None)
  \/ (exists text,
         TaskCreate.valid text = true
         /\ snd (handle r s)
            = {| tasks_storage := tasks_storage s ++ [created s text];
                 next_task_id := next_task_id s + 1 |}
         /\ assigned_id (fst (handle r s)) = Some (next_task_id s)
         /\ deleted_id (fst (handle r s)) = None)
  \/ (exists l1 t l2,
         tasks_storage s = l1 ++ t :: l2
         /\ Forall (fun x => Task.id x <> Task.id t) l1
         /\ snd (handle r s)
            = {| tasks_storage := l1 ++ l2; next_task_id := next_task_id s |}
         /\ assigned_id (fst (handle r s)) = None
         /\ deleted_id (fst (handle r s)) = Some (Task.id t)).
Proof.
  destruct r as [| |text|task_id|].
  - left. repeat split.
  - left. repeat split.
  - destruct (TaskCreate.valid text) eqn:V.
    + right. left. exists text. rewrite (handle_POST_valid _ _ V).
      repeat split. exact V.
    + left. rewrite (handle_POST_invalid _ _ V).
      split; [reflexivity|]. split; [apply refusal_assigned_id|].
      cbn [fst]. unfold refusal. destruct (TaskCreate.encodable text); reflexivity.
  - destruct (find_task_loop task_id (tasks_storage s)) as [t|] eqn:F.
    + right. right.
      destruct (handle_DELETE_found _ _ _ F) as [l1 [l2 [El [Fl [Hid H]]]]].
      exists l1, t, l2. rewrite H.
      split; [exact El|]. split; [rewrite Hid; exact Fl|]. repeat split.
    + left. rewrite (handle_DELETE_missing _ _ F). repeat split.
  - left. repeat split.
Qed.

Lemma len_app {A : Type} (a b : list A) : Py.len (a ++ b) = Py.len a + Py.len b.
Proof. unfold Py.len. rewrite length_app. lia. Qed.

Lemma len_cons {A : Type} (x : A) (l : list A) : Py.len (x :: l) = 1 + Py.len l.
Proof. unfold Py.len. cbn [List.length]. lia. Qed.

Lemma len_nonneg {A : Type} (l : list A) : 0 <= Py.len l.
Proof. unfold Py.len. lia. Qed.

(** The number of stored tasks moves with the creations and the deletions. *)
Lemma run_task_count (reqs : list request) (s : Store) :
  Py.len (tasks_storage (final reqs s))
  = Py.len (tasks_storage s)
    + Py.len (assigned_ids (responses reqs s))
    - Py.len (deleted_ids (responses reqs s)).
Proof.
  revert s. induction reqs as [|r reqs IH]; intros s.
  - rewrite final_nil. unfold responses, Py.len. simpl. lia.
  - rewrite final_cons, responses_cons, IH.
    cbn [assigned_ids deleted_ids].
    destruct (handle_cases r s)
      as [[E [A D]] | [[text [V [E [A D]]]] | [l1 [t [l2 [El [_ [E [A D]]]]]]]]];
      rewrite E, A, D.
    + lia.
    + cbn [tasks_storage]. rewrite len_app, !len_cons.
      change (Py.len (@nil Task.t)) with 0. lia.
    + cbn [tasks_storage]. rewrite El, !len_app, !len_cons. lia.
Qed.

(** ** The informative endpoints *)

(** X1: after any sequence of requests from the initial store, the root
    endpoint reports as [total_tasks] the number of tasks created so far
    minus the number of tasks deleted so far, and leaves the store as it
    is. *)
Theorem X1_root_counts_live_tasks (reqs : list request) :
  let s := final reqs initial_store in
  let resps := responses reqs initial_store in
  root s
  = (Return {| total_tasks := Py.len (assigned_ids resps)
                              - Py.len (deleted_ids resps) |}, s).
Proof.
  intros s resps. unfold root, bind, read_tasks_storage, ret.
  unfold s. rewrite (run_task_count reqs initial_store). reflexivity.
Qed.

(** X2: after any sequence of requests from the initial store, the health
    check reports [next_id] as one more than the number of tasks created so
    far and [tasks_count] as that number minus the number of deletions; the
    count is never negative and always below [next_id]; the store is left as
    it is. *)
Theorem X2_health_check_counts (reqs : list request) :
  let s := final reqs initial_store in
  let created_n := Py.len (assigned_ids (responses reqs initial_store)) in
  let deleted_n := Py.len (deleted_ids (responses reqs initial_store)) in
  health_check s
  = (Return {| tasks_count := created_n - deleted_n; next_id := 1 + created_n |}, s)
  /\ 0 <= created_n - deleted_n < 1 + created_n.
Proof.
  cbv zeta.
  pose proof (run_task_count reqs initial_store) as C.
  destruct (run_assigned_ids reqs initial_store) as [_ [_ N]].
  change (Py.len (tasks_storage initial_store)) with 0 in C.
  change (next_task_id initial_store) with 1 in N.
  split.
  - unfold health_check, bind, read_tasks_storage, read_next_task_id, ret.
    rewrite C, N. reflexivity.
  - pose proof (len_nonneg (tasks_storage (final reqs initial_store))).
    pose proof (len_nonneg (deleted_ids (responses reqs initial_store))).
    lia.
Qed.

(** ** Ids without gaps *)

Lemma run_assigned_ids_consecutive (reqs : list request) (s : Store) :
  assigned_ids (responses reqs s)
  = map (fun k => next_task_id s + Z.of_nat k)
        (seq 0 (List.length (assigned_ids (responses reqs s)))).
Proof.
  revert s. induction reqs as [|r reqs IH]; intros s; [reflexivity|].
  rewrite responses_cons. cbn [assigned_ids].
  destruct (handle_counter r s) as [[E N]|[E N]]; rewrite E.
  - rewrite IH at 1. rewrite N. reflexivity.
  - cbn [List.length seq map]. rewrite Z.add_0_r. f_equal.
    rewrite IH at 1. rewrite N, <- seq_shift, map_map.
    apply map_ext. intros k. lia.
Qed.

(** X3: the ids handed out are consecutive: along any sequence of requests
    from the initial store the k-th task created (counting from 0) gets id
    k + 1, whatever rejected creations, deletions or reads come in between. *)
Theorem X3_assigned_ids_are_consecutive (reqs : list request) :
  let ids := assigned_ids (responses reqs initial_store) in
  ids = map (fun k => 1 + Z.of_nat k) (seq 0 (List.length ids)).
Proof.
  intros ids. exact (run_assigned_ids_consecutive reqs initial_store).
Qed.

(** ** Validation of the text *)

Lemma valid_length (text : Py.str) :
  TaskCreate.valid text = true -> 1 <= Py.len text <= 200.
Proof.
  unfold TaskCreate.valid, TaskCreate.min_length, TaskCreate.max_length.
  rewrite !andb_true_iff, !Z.leb_le. tauto.
Qed.

(** A text holding a lone surrogate is refused whatever its length, the
    request ends as an internal error and the store is untouched. *)
Example lone_surrogate_refused :
  handle (POST_tasks [55357%N]) initial_store
  = ({| status := 500; content := Internal_server_error |}, initial_store).
Proof. reflexivity. Qed.

(** ** Stored texts *)

Lemma lstrip_fixed (s : Py.str) :
  (forall c r, s = c :: r -> Py.isspace c = false) -> Py.lstrip s = s.
Proof.
  destruct s as [|c s]; simpl; [reflexivity|].
  intros H. rewrite (H c s eq_refl). reflexivity.
Qed.

Lemma rstrip_fixed (s : Py.str) :
  (forall r c, s = r ++ [c] -> Py.isspace c = false) -> Py.rstrip s = s.
Proof.
  intros H. unfold Py.rstrip. rewrite lstrip_fixed; [apply rev_involutive|].
  intros c r E. apply (H (rev r) c).
  rewrite <- (rev_involutive s), E. reflexivity.
Qed.

Lemma strip_idempotent (s : Py.str) : Py.strip (Py.strip s) = Py.strip s.
Proof.
  destruct (PyFacts.strip_ends s) as [H1 H2].
  unfold Py.strip at 1. fold (Py.strip s).
  rewrite (lstrip_fixed _ H1). exact (rstrip_fixed _ H2).
Qed.

Lemma strip_keeps_nonblank (s : Py.str) (c : Py.char) :
  In c s -> Py.isspace c = false -> In c (Py.strip s).
Proof.
  intros Hin Hc. destruct (PyFacts.strip_split s) as [l [r [E [Fl Fr]]]].
  assert (Hin' : In c (l ++ Py.strip s ++ r)) by (rewrite <- E; exact Hin).
  rewrite forallb_forall in Fl, Fr.
  apply in_app_or in Hin'. destruct Hin' as [Hl|Hin'].
  - rewrite (Fl _ Hl) in Hc. discriminate.
  - apply in_app_or in Hin'. destruct Hin' as [Hs|Hr]; [exact Hs|].
    rewrite (Fr _ Hr) in Hc. discriminate.
Qed.

(** X5: in every store the service can be in, every stored text is trimmed:
    stripping it again changes nothing, and it neither starts nor ends with
    a whitespace character. *)
Theorem X5_stored_text_is_trimmed (reqs : list request) :
  Forall (fun t =>
            Py.strip (Task.text t) = Task.text t
            /\ (forall c r, Task.text t = c :: r -> Py.isspace c = false)
            /\ (forall r c, Task.text t = r ++ [c] -> Py.isspace c = false))
         (tasks_storage (final reqs initial_store)).
Proof.
  assert (I : Forall (fun t => Py.strip (Task.text t) = Task.text t)
                     (tasks_storage (final reqs initial_store))).
  { apply (run_induction
             (fun s => Forall (fun t => Py.strip (Task.text t) = Task.text t)
                              (tasks_storage s))); [|constructor].
    intros s resp s' H Sh.
    inversion Sh as [|? text V _|? l1 l2 t _ El]; subst; simpl.
    - exact H.
    - apply Forall_app. split; [exact H|]. repeat constructor.
      simpl. apply strip_idempotent.
    - rewrite El in H. eapply Forall_drop_middle; exact H. }
  eapply Forall_impl; [|exact I]. simpl. intros t E.
  destruct (PyFacts.strip_ends (Task.text t)) as [H1 H2].
  rewrite E in H1, H2. auto.
Qed.

(** X6: when a text is accepted and holds a character that is not
    whitespace, the task stored for it has a non-empty text of at most 200
    characters in which that character is kept. *)
Theorem X6_nonblank_text_is_stored_nonempty
  (s : Store) (text : Py.str) (c : Py.char) :
  TaskCreate.valid text = true ->
  In c text ->
  Py.isspace c = false ->
  exists t,
    tasks_storage (snd (create_op text s)) = tasks_storage s ++ [t]
    /\ In c (Task.text t)
    /\ 1 <= Py.len (Task.text t) <= 200.
Proof.
  intros V Hin Hc. unfold create_op. rewrite (handle_POST_valid _ _ V).
  exists (created s text). split; [reflexivity|].
  pose proof (strip_keeps_nonblank _ _ Hin Hc) as K.
  split; [exact K|]. simpl.
  pose proof (PyFacts.strip_length text) as L.
  apply valid_length in V. unfold Py.len in *.
  destruct (Py.strip text); [destruct K|]. cbn [List.length] in *. lia.
Qed.

Lemma X6_witness :
  exists t,
    tasks_storage (snd (create_op (Py.of_string "  buy milk  ") initial_store))
    = tasks_storage initial_store ++ [t]
    /\ In 98%N (Task.text t)
    /\ 1 <= Py.len (Task.text t) <= 200.
Proof.
  apply (X6_nonblank_text_is_stored_nonempty initial_store
           (Py.of_string "  buy milk  ") 98%N).
  - reflexivity.
  - simpl. auto.
  - reflexivity.
Defined.

(** ** Lookup *)

(** X7: in any store, [find_task_by_id] leaves the store as it is and
    returns the first stored task with the id asked for: a task of the
    store, carrying that id, with no task of that id before it; it returns
    [None] only when no stored task has the id. *)
Theorem X7_find_task_by_id_first_match (s : Store) (task_id : Z) :
  exists r,
    find_task_by_id task_id s = (Return r, s)
    /\ match r with
       | Some t =>
           exists l1 l2,
             tasks_storage s = l1 ++ t :: l2
             /\ Task.id t = task_id
             /\ Forall (fun x => Task.id x <> task_id) l1
       | None => Forall (fun x => Task.id x <> task_id) (tasks_storage s)
       end.
Proof.
  exists (find_task_loop task_id (tasks_storage s)). split; [reflexivity|].
  destruct (find_task_loop task_id (tasks_storage s)) as [t|] eqn:F.
  - destruct (find_then_remove _ _ _ F) as [l1 [l2 [El [Fl [Hid _]]]]].
    exists l1, l2. auto.
  - apply find_task_loop_none. exact F.
Qed.

Lemma find_task_loop_skip (task_id : Z) (l l' : list Task.t) :
  Forall (fun x => Task.id x <> task_id) l ->
  find_task_loop task_id (l ++ l') = find_task_loop task_id l'.
Proof.
  induction 1 as [|x l Hx _ IH]; simpl; [reflexivity|].
  apply Z.eqb_neq in Hx. rewrite Hx. exact IH.
Qed.

Lemma list_remove_skip (t : Task.t) (l l' : list Task.t) :
  Forall (fun x => Task.id x <> Task.id t) l ->
  Py.list_remove Task.eqb t (l ++ t :: l') = Some (l ++ l').
Proof.
  induction 1 as [|x l Hx _ IH]; simpl.
  - rewrite Task_eqb_refl. reflexivity.
  - destruct (Task.eqb x t) eqn:Q.
    + apply Task_eqb_id in Q. contradiction.
    + rewrite IH. reflexivity.
Qed.

(** X8: in a store the service can be in, a task just created is found
    under its id, and deleting that id right away answers 200 with the task
    and puts the stored sequence back to what it was before the creation;
    the counter stays advanced, so the id is not handed out again. *)
Theorem X8_create_then_delete (reqs : list request) (text : Py.str) :
  TaskCreate.valid text = true ->
  let s := final reqs initial_store in
  let s1 := snd (create_op text s) in
  let new_task := {| Task.id := next_task_id s; Task.text := Py.strip text |} in
  find_task_by_id (next_task_id s) s1 = (Return (Some new_task), s1)
  /\ delete_op (next_task_id s) s1
     = ({| status := 200;
           content := Deleted_body
             {| message_task_id := next_task_id s;
                deleted_task := to_response new_task |} |},
        {| tasks_storage := tasks_storage s;
           next_task_id := next_task_id s + 1 |}).
Proof.
  intros V s s1 new_task.
  pose proof (store_ok_final reqs _ store_ok_initial) as Ok. fold s in Ok.
  assert (A : Forall (fun x => Task.id x <> next_task_id s) (tasks_storage s)).
  { apply unissued_id_absent; [exact Ok | lia]. }
  assert (E1 : s1 = {| tasks_storage := tasks_storage s ++ [new_task];
                       next_task_id := next_task_id s + 1 |}).
  { unfold s1, create_op. rewrite (handle_POST_valid _ _ V). reflexivity. }
  assert (F : find_task_loop (next_task_id s) (tasks_storage s1) = Some new_task).
  { rewrite E1. cbn [tasks_storage]. rewrite (find_task_loop_skip _ _ _ A).
    simpl. rewrite Z.eqb_refl. reflexivity. }
  split.
  - unfold find_task_by_id, bind, read_tasks_storage, ret. rewrite F. reflexivity.
  - unfold delete_op, handle, respond, delete_task, find_task_by_id, bind,
      read_tasks_storage, ret, tasks_storage_remove.
    rewrite F. rewrite E1. cbn [tasks_storage next_task_id].
    rewrite (list_remove_skip new_task (tasks_storage s) [] A).
    rewrite app_nil_r. reflexivity.
Qed.

Lemma X8_witness :
  delete_op 2 (snd (create_op (Py.of_string "b")
                      (final [POST_tasks (Py.of_string "a")] initial_store)))
  = ({| status := 200;
        content := Deleted_body
          {| message_task_id := 2;
             deleted_task := {| TaskResponse.id := 2;
                                TaskResponse.text := Py.of_string "b" |} |} |},
     {| tasks_storage := [ {| Task.id := 1; Task.text := Py.of_string "a" |} ];
        next_task_id := 3 |}).
Proof.
  exact (proj2 (X8_create_then_delete [POST_tasks (Py.of_string "a")]
                  (Py.of_string "b") eq_refl)).
Defined.

(** ** Failures *)

(** X9: in any store [delete_task] never raises the [ValueError] that
    [list.remove] raises for a missing item, since the task it removes is
    one the scan has just found in the list; a delete is answered 200 or
    404, never as an internal error. *)
Theorem X9_delete_never_raises_ValueError (s : Store) (task_id : Z) :
  fst (delete_task task_id s) <> Raise ValueError
  /\ (status (fst (delete_op task_id s)) = 200
      \/ status (fst (delete_op task_id s)) = 404)
  /\ content (fst (delete_op task_id s)) <> Internal_server_error.
Proof.
  split; [|split].
  - unfold delete_task, find_task_by_id, bind, read_tasks_storage, ret,
      tasks_storage_remove, raise.
    destruct (find_task_loop task_id (tasks_storage s)) as [t|] eqn:F.
    + destruct (find_then_remove _ _ _ F) as [l1 [l2 [_ [_ [_ R]]]]].
      rewrite R. simpl. discriminate.
    + simpl. discriminate.
  - unfold delete_op.
    destruct (find_task_loop task_id (tasks_storage s)) as [t|] eqn:F.
    + destruct (handle_DELETE_found _ _ _ F) as [l1 [l2 [_ [_ [_ H]]]]].
      rewrite H. left. reflexivity.
    + rewrite (handle_DELETE_missing _ _ F). right. reflexivity.
  - unfold delete_op.
    destruct (find_task_loop task_id (tasks_storage s)) as [t|] eqn:F.
    + destruct (handle_DELETE_found _ _ _ F) as [l1 [l2 [_ [_ [_ H]]]]].
      rewrite H. simpl. discriminate.
    + rewrite (handle_DELETE_missing _ _ F). simpl. discriminate.
Qed.

(** X10: a request answered with an error status (400 or above) leaves the
    store exactly as it was: same tasks, same counter. *)
Theorem X10_error_leaves_store (r : request) (s : Store) :
  400 <= status (fst (handle r s)) -> snd (handle r s) = s.
Proof.
  destruct r as [| |text|task_id|]; try reflexivity.
  - destruct (TaskCreate.valid text) eqn:V.
    + rewrite (handle_POST_valid _ _ V). simpl. lia.
    + rewrite (handle_POST_invalid _ _ V). reflexivity.
  - destruct (find_task_loop task_id (tasks_storage s)) as [t|] eqn:F.
    + destruct (handle_DELETE_found _ _ _ F) as [l1 [l2 [_ [_ [_ H]]]]].
      rewrite H. simpl. lia.
    + rewrite (handle_DELETE_missing _ _ F). reflexivity.
Qed.

Lemma X10_witness :
  400 <= status (fst (handle (DELETE_tasks 7)
                        (final [POST_tasks (Py.of_string "a")] initial_store)))
  /\ snd (handle (DELETE_tasks 7)
            (final [POST_tasks (Py.of_string "a")] initial_store))
     = final [POST_tasks (Py.of_string "a")] initial_store.
Proof.
  assert (H : 400 <= status (fst (handle (DELETE_tasks 7)
                (final [POST_tasks (Py.of_string "a")] initial_store)))).
  { change (400 <= 404). lia. }
  split; [exact H|].
  exact (X10_error_leaves_store _ _ H).
Defined.

(** ** Deletions as filters *)

Lemma filter_other_id_all (i : Z) (l : list Task.t) :
  Forall (fun x => Task.id x <> i) l -> filter (other_id i) l = l.
Proof.
  induction 1 as [|x l Hx _ IH]; simpl; [reflexivity|].
  unfold other_id at 1. apply Z.eqb_neq in Hx. rewrite Hx. simpl.
  rewrite IH. reflexivity.
Qed.

Lemma filter_swap {A : Type} (f g : A -> bool) (l : list A) :
  filter f (filter g l) = filter g (filter f l).
Proof.
  induction l as [|x l IH]; simpl; [reflexivity|].
  destruct (f x) eqn:Fx, (g x) eqn:Gx; simpl; rewrite ?Fx, ?Gx, IH; reflexivity.
Qed.

Lemma store_ok_handle (r : request) (s : Store) :
  store_ok s -> store_ok (snd (handle r s)).
Proof.
  intros Ok. exact (store_ok_step _ _ _ Ok (handle_shape r s)).
Qed.

(** Where ids are unique, a delete keeps exactly the tasks with another
    id. *)
Lemma delete_store_filter (s : Store) (i : Z) :
  store_ok s ->
  snd (delete_op i s)
  = {| tasks_storage := filter (other_id i) (tasks_storage s);
       next_task_id := next_task_id s |}.
Proof.
  intros Ok. unfold delete_op.
  destruct (find_task_loop i (tasks_storage s)) as [t|] eqn:F.
  - destruct (handle_DELETE_found _ _ _ F) as [l1 [l2 [El [F1 [Hid H]]]]].
    rewrite H. simpl. f_equal.
    pose proof (ok_sorted _ Ok) as So. rewrite El in So.
    destruct (sorted_middle_unique _ _ _ So) as [_ F2]. rewrite Hid in F2.
    rewrite El, filter_app. simpl. unfold other_id at 2.
    rewrite Hid, Z.eqb_refl. simpl.
    rewrite (filter_other_id_all _ _ F1), (filter_other_id_all _ _ F2).
    reflexivity.
  - rewrite (handle_DELETE_missing _ _ F). simpl.
    apply find_task_loop_none in F.
    rewrite (filter_other_id_all _ _ F). destruct s; reflexivity.
Qed.

Lemma delete_response (s : Store) (j : Z) :
  fst (delete_op j s)
  = match find_task_loop j (tasks_storage s) with
    | Some t =>
        {| status := 200;
           content := Deleted_body {| message_task_id := j;
                                      deleted_task := to_response t |} |}
    | None => {| status := 404; content := Error_body (Task_not_found j) |}
    end.
Proof.
  unfold delete_op.
  destruct (find_task_loop j (tasks_storage s)) as [t|] eqn:F.
  - destruct (handle_DELETE_found _ _ _ F) as [l1 [l2 [_ [_ [_ H]]]]].
    rewrite H. reflexivity.
  - rewrite (handle_DELETE_missing _ _ F). reflexivity.
Qed.

Lemma find_task_loop_filter (i j : Z) (l : list Task.t) :
  i <> j ->
  find_task_loop j (filter (other_id i) l) = find_task_loop j l.
Proof.
  intros N. induction l as [|x l IH]; simpl; [reflexivity|].
  unfold other_id at 1. destruct (Task.id x =? i) eqn:E; simpl.
  - apply Z.eqb_eq in E.
    assert (Q : (Task.id x =? j) = false) by (apply Z.eqb_neq; lia).
    rewrite Q. exact IH.
  - destruct (Task.id x =? j); [reflexivity | exact IH].
Qed.

(** X11: in a store the service can be in, deletions of two different ids
    do not interfere: done in either order they lead to the same store, and
    the answer to the one is the same whether or not the other came
    first. *)
Theorem X11_deletes_of_distinct_ids_commute
  (reqs : list request) (i j : Z) :
  i <> j ->
  let s := final reqs initial_store in
  snd (delete_op j (snd (delete_op i s)))
  = snd (delete_op i (snd (delete_op j s)))
  /\ fst (delete_op j (snd (delete_op i s))) = fst (delete_op j s).
Proof.
  intros N s.
  pose proof (store_ok_final reqs _ store_ok_initial) as Ok. fold s in Ok.
  pose proof (store_ok_handle (DELETE_tasks i) s Ok) as Oki.
  pose proof (store_ok_handle (DELETE_tasks j) s Ok) as Okj.
  fold (delete_op i s) in Oki. fold (delete_op j s) in Okj.
  split.
  - rewrite (delete_store_filter _ j Oki), (delete_store_filter _ i Okj).
    rewrite (delete_store_filter s i Ok), (delete_store_filter s j Ok).
    simpl. rewrite filter_swap. reflexivity.
  - rewrite !delete_response, (delete_store_filter s i Ok). simpl.
    rewrite (find_task_loop_filter i j _ N). reflexivity.
Qed.

Lemma X11_witness :
  snd (delete_op 2 (snd (delete_op 1
         (final [POST_tasks (Py.of_string "a"); POST_tasks (Py.of_string "b")]
            initial_store))))
  = snd (delete_op 1 (snd (delete_op 2
         (final [POST_tasks (Py.of_string "a"); POST_tasks (Py.of_string "b")]
            initial_store)))).
Proof.
  apply (X11_deletes_of_distinct_ids_commute
           [POST_tasks (Py.of_string "a"); POST_tasks (Py.of_string "b")] 1 2).
  lia.
Defined.

(** ** What is stored after a run *)

Lemma filter_not_among_nil (l : list Z) : filter (not_among []) l = l.
Proof.
  induction l as [|x l IH]; simpl; [reflexivity|]. rewrite IH. reflexivity.
Qed.

Lemma filter_not_among_cons (x : Z) (d l : list Z) :
  filter (not_among (x :: d)) l
  = filter (not_among d) (filter (fun i => negb (i =? x)) l).
Proof.
  induction l as [|y l IH]; simpl; [reflexivity|].
  unfold not_among at 1. simpl existsb.
  destruct (y =? x) eqn:E; simpl.
  - exact IH.
  - fold (not_among d y). destruct (not_among d y); rewrite IH; reflexivity.
Qed.

Lemma filter_neq_all (x : Z) (l : list Z) :
  Forall (fun i => i <> x) l -> filter (fun i => negb (i =? x)) l = l.
Proof.
  induction 1 as [|y l Hy _ IH]; simpl; [reflexivity|].
  apply Z.eqb_neq in Hy. rewrite Hy. simpl. rewrite IH. reflexivity.
Qed.

Lemma run_stored_ids (reqs : list request) (s : Store) :
  store_ok s ->
  map Task.id (tasks_storage (final reqs s))
  = filter (not_among (deleted_ids (responses reqs s)))
           (map Task.id (tasks_storage s) ++ assigned_ids (responses reqs s)).
Proof.
  revert s. induction reqs as [|r reqs IH]; intros s Ok.
  - rewrite final_nil. unfold responses. simpl.
    rewrite app_nil_r, filter_not_among_nil. reflexivity.
  - rewrite final_cons, responses_cons.
    rewrite (IH _ (store_ok_handle r s Ok)).
    cbn [assigned_ids deleted_ids].
    destruct (run_assigned_ids reqs (snd (handle r s))) as [_ [Bd _]].
    destruct (handle_cases r s)
      as [[E [A D]] | [[text [V [E [A D]]]] | [l1 [t [l2 [El [F1 [E [A D]]]]]]]]];
      rewrite A, D; rewrite E in *.
    + reflexivity.
    + cbn [tasks_storage]. rewrite map_app, <- app_assoc. reflexivity.
    + cbn [tasks_storage next_task_id] in *.
      rewrite filter_not_among_cons. f_equal.
      pose proof (ok_sorted _ Ok) as So. rewrite El in So.
      destruct (sorted_middle_unique _ _ _ So) as [_ F2].
      pose proof (ok_below _ Ok) as B. rewrite El, Forall_app in B.
      destruct B as [_ B]. inversion B as [|? ? Bt _]; subst.
      rewrite El, !map_app. cbn [map].
      rewrite !filter_app. cbn [filter]. rewrite Z.eqb_refl. cbn [negb].
      rewrite !filter_neq_all; [reflexivity| | |].
      * eapply Forall_impl; [|exact Bd]. simpl. intros; lia.
      * rewrite Forall_map. exact F2.
      * rewrite Forall_map. exact F1.
Qed.

(** X12: after any sequence of requests from the initial store, the ids of
    the stored tasks, in stored order, are the ids assigned so far, in the
    order they were assigned, without the ids deleted so far. *)
Theorem X12_stored_ids_are_assigned_minus_deleted (reqs : list request) :
  let resps := responses reqs initial_store in
  map Task.id (tasks_storage (final reqs initial_store))
  = filter (not_among (deleted_ids resps)) (assigned_ids resps).
Proof.
  intros resps. exact (run_stored_ids reqs initial_store store_ok_initial).
Qed.

(** ** The formatted messages *)

Lemma of_string_inj (a b : string) : Py.of_string a = Py.of_string b -> a = b.
Proof.
  unfold Py.of_string. intros E.
  rewrite <- (string_of_list_ascii_of_string a),
          <- (string_of_list_ascii_of_string b).
  f_equal. revert E.
  generalize (list_ascii_of_string a) (list_ascii_of_string b).
  induction l as [|x l IH]; intros [|y l']; simpl; intros E;
    try discriminate; [reflexivity|].
  injection E as Exy E. f_equal; [|exact (IH _ E)].
  rewrite <- (ascii_N_embedding x), <- (ascii_N_embedding y), Exy.
  reflexivity.
Qed.

Lemma to_int_not_nil (n : Z) :
  Z.to_int n <> Decimal.Pos Decimal.Nil /\ Z.to_int n <> Decimal.Neg Decimal.Nil.
Proof.
  destruct n as [|p|p]; simpl; split; intros E; try discriminate;
    injection E as E; exact (DecimalPos.Unsigned.to_uint_nonnil p E).
Qed.

Lemma str_of_int_inj (a b : Z) : str_of_int a = str_of_int b -> a = b.
Proof.
  unfold str_of_int. intros E. apply of_string_inj in E.
  apply (f_equal DecimalString.NilZero.int_of_string) in E.
  destruct (to_int_not_nil a) as [A1 A2]. destruct (to_int_not_nil b) as [B1 B2].
  rewrite (DecimalString.NilZero.isi _ A1 A2),
          (DecimalString.NilZero.isi _ B1 B2) in E.
  injection E as E. exact (DecimalZ.to_int_inj _ _ E).
Qed.

Example detail_message_7 :
  detail_message (Task_not_found 7) = Py.of_string "Task with id 7 not found"
  /\ detail_message (Task_not_found (-30))
     = Py.of_string "Task with id -30 not found".
Proof. split; reflexivity. Qed.

(** X13: the texts [delete_task] formats tell the id: two not-found details
    are the same text only for the same id, two confirmation messages are
    the same text only for the same id, and a not-found detail is never the
    text of a confirmation. *)
Theorem X13_messages_identify_the_id :
  (forall i j,
      detail_message (Task_not_found i) = detail_message (Task_not_found j)
      <-> i = j)
  /\ (forall d d',
         deleted_message d = deleted_message d'
         <-> message_task_id d = message_task_id d')
  /\ (forall i d, detail_message (Task_not_found i) <> deleted_message d).
Proof.
  split; [|split].
  - intros i j. split; [|intros ->; reflexivity].
    unfold detail_message. intros E.
    apply app_inv_head, app_inv_tail in E. exact (str_of_int_inj _ _ E).
  - intros d d'. split.
    + unfold deleted_message. intros E.
      apply app_inv_head, app_inv_tail in E. exact (str_of_int_inj _ _ E).
    + unfold deleted_message. intros ->. reflexivity.
  - intros i d. unfold detail_message, deleted_message. intros E.
    apply app_inv_head in E.
    change (Py.of_string " not found")
      with (Py.of_string " not foun" ++ [100%N]) in E.
    change (Py.of_string " deleted successfully")
      with (Py.of_string " deleted successfull" ++ [121%N]) in E.
    rewrite !app_assoc in E.
    apply (f_equal (fun l => last l 0%N)) in E.
    rewrite !last_last in E. discriminate.
Qed.

(** ** The life of a task *)

(** X14: there is no update: whatever requests follow, a stored task whose
    id had already been issued in store [s] is a task of [s], with the text
    it had there. *)
Theorem X14_stored_tasks_never_change
  (reqs : list request) (s : Store) (t : Task.t) :
  In t (tasks_storage (final reqs s)) ->
  Task.id t < next_task_id s ->
  In t (tasks_storage s).
Proof.
  intros Hin Hid.
  assert (P : next_task_id s <= next_task_id (final reqs s)
              /\ forall x, In x (tasks_storage (final reqs s)) ->
                           Task.id x < next_task_id s ->
                           In x (tasks_storage s)).
  { apply (run_induction
             (fun s' => next_task_id s <= next_task_id s'
                        /\ forall x, In x (tasks_storage s') ->
                                     Task.id x < next_task_id s ->
                                     In x (tasks_storage s)));
      [|split; [lia | auto]].
    clear. intros s0 resp s' [N K] Sh.
    inversion Sh as [|? text V _|? l1 l2 y _ El]; subst; simpl.
    - split; assumption.
    - split; [lia|]. intros x Hx Hlt. apply in_app_or in Hx.
      destruct Hx as [Hx|[<-|[]]]; [exact (K _ Hx Hlt)|].
      simpl in Hlt. lia.
    - split; [exact N|]. intros x Hx Hlt. apply K; [|exact Hlt].
      rewrite El. apply in_app_or in Hx. apply in_or_app.
      destruct Hx as [Hx|Hx]; [left; exact Hx | right; right; exact Hx]. }
  exact (proj2 P t Hin Hid).
Qed.

Lemma X14_witness :
  In {| Task.id := 1; Task.text := Py.of_string "a" |}
     (tasks_storage (final [POST_tasks (Py.of_string "a")] initial_store)).
Proof.
  apply (X14_stored_tasks_never_change
           [POST_tasks (Py.of_string "b"); DELETE_tasks 2; GET_tasks]
           (final [POST_tasks (Py.of_string "a")] initial_store)).
  - left. reflexivity.
  - reflexivity.
Defined.

(** X15: a task leaves the store only through a delete: whatever requests
    are handled from store [s], a task of [s] is still stored at the end
    unless a delete along the way was answered with its id. *)
Theorem X15_tasks_leave_only_by_delete
  (reqs : list request) (s : Store) (t : Task.t) :
  In t (tasks_storage s) ->
  In t (tasks_storage (final reqs s))
  \/ In (Task.id t) (deleted_ids (responses reqs s)).
Proof.
  revert s. induction reqs as [|r reqs IH]; intros s Hin.
  - left. exact Hin.
  - rewrite final_cons, responses_cons. cbn [deleted_ids].
    destruct (handle_cases r s)
      as [[E [_ D]] | [[text [_ [E [_ D]]]] | [l1 [y [l2 [El [_ [E [_ D]]]]]]]]];
      rewrite D.
    + apply IH. rewrite E. exact Hin.
    + apply IH. rewrite E. simpl. apply in_or_app. left. exact Hin.
    + rewrite El in Hin. apply in_app_or in Hin.
      destruct Hin as [H1|[<-|H2]].
      * destruct (IH (snd (handle r s))) as [K|K];
          [rewrite E; simpl; apply in_or_app; left; exact H1
          | left; exact K | right; right; exact K].
      * right. left. reflexivity.
      * destruct (IH (snd (handle r s))) as [K|K];
          [rewrite E; simpl; apply in_or_app; right; exact H2
          | left; exact K | right; right; exact K].
Qed.

Lemma X15_witness :
  In {| Task.id := 1; Task.text := Py.of_string "a" |}
     (tasks_storage
        (final [POST_tasks (Py.of_string "b"); DELETE_tasks 2]
           (final [POST_tasks (Py.of_string "a")] initial_store)))
  \/ In 1 (deleted_ids
             (responses [POST_tasks (Py.of_string "b"); DELETE_tasks 2]
                (final [POST_tasks (Py.of_string "a")] initial_store))).
Proof.
  apply (X15_tasks_leave_only_by_delete
           [POST_tasks (Py.of_string "b"); DELETE_tasks 2]
           (final [POST_tasks (Py.of_string "a")] initial_store)
           {| Task.id := 1; Task.text := Py.of_string "a" |}).
  left. reflexivity.
Defined.
